(** * hello_world.py : a shallow embedding and its specification

    The script defines [greet(name="World")], which returns the f-string
    [f"Hello, {name}!"], and [main()], which prints three greetings.  The
    embedding has two layers:

    - [Module Py]: the fragment of the Python runtime the script touches
      (text strings, a few built-in values, [str()], f-string evaluation,
      argument binding for one optional parameter, [print], uncaught
      exceptions and the exit status);
    - the script itself: [greet], [main] and the module body. *)

From Stdlib Require Import List String Ascii Bool NArith ZArith Lia DecimalString.
Import ListNotations.

Local Open Scope string_scope.
Local Open Scope list_scope.

(** ** The Python runtime fragment *)

Module Py.

(** A Python 3 [str] is a sequence of Unicode code points; [len] counts
    code points, not bytes. *)
Definition codepoint : Type := N.
Definition str : Type := list codepoint.

(** Source literals of the script are plain ASCII. *)
Definition lit (s : string) : str := map N_of_ascii (list_ascii_of_string s).

(** "\n" *)
Definition nl : codepoint := 10%N.

(** The built-in values the embedding covers. *)
Inductive value : Type :=
| VNone
| VBool (b : bool)
| VInt (z : Z)
| VStr (s : str).

Inductive exn : Type :=
| TypeError.

Inductive outcome (A : Type) : Type :=
| Ok (a : A)
| Raise (e : exn).
Arguments Ok {A} a.
Arguments Raise {A} e.

(** What the process can change outside itself: the text written to
    [sys.stdout] so far. *)
Record world : Type := World { stdout : str }.

(** Computations thread the world and may raise; a raised exception keeps
    the effects made before it. *)
Definition M (A : Type) : Type := world -> outcome A * world.

Definition ret {A} (a : A) : M A := fun w => (Ok a, w).

Definition raise {A} (e : exn) : M A := fun w => (Raise e, w).

Definition bind {A B} (c : M A) (k : A -> M B) : M B :=
  fun w =>
    match c w with
    | (Ok a, w') => k a w'
    | (Raise e, w') => (Raise e, w')
    end.

Declare Scope py_scope.
Delimit Scope py_scope with py.
Notation "x <- c ;; k" := (bind c (fun x => k))
  (at level 61, c at next level, right associativity) : py_scope.
Notation "c ;; k" := (bind c (fun _ => k))
  (at level 61, right associativity) : py_scope.

(** [str(v)] *)
Definition py_str (v : value) : str :=
  match v with
  | VNone => lit "None"
  | VBool true => lit "True"
  | VBool false => lit "False"
  | VInt z => lit (NilZero.string_of_int (Z.to_int z))
  | VStr s => s
  end.

(** [format(v, "")]: what a replacement field [{v}] without conversion and
    without format specification inserts.  For the values above it is
    [str(v)]. *)
Definition format_value (v : value) : str := py_str v.

(** An f-string is a [JoinedStr] of constant pieces and replacement
    fields, concatenated left to right. *)
Inductive fpart : Type :=
| Constant (s : str)
| FormattedValue (v : value).

Fixpoint JoinedStr (parts : list fpart) : str :=
  match parts with
  | [] => []
  | Constant s :: rest => s ++ JoinedStr rest
  | FormattedValue v :: rest => format_value v ++ JoinedStr rest
  end.

(** Binding a call's arguments to the signature [(pname=default)]: one
    parameter, positional or keyword, with a default.  Too many arguments,
    an unknown keyword, or a value given twice raise [TypeError]. *)
Definition bind_optional (pname : string) (default : value)
    (args : list value) (kwargs : list (string * value)) : M value :=
  match args, kwargs with
  | [], [] => ret default
  | [v], [] => ret v
  | [], [(k, v)] => if String.eqb k pname then ret v else raise TypeError
  | _, _ => raise TypeError
  end.

(** [print(v)]: writes [str(v)] and the line end to [sys.stdout], and
    returns [None].  The write itself is taken to succeed. *)
Definition print (v : value) : M value :=
  fun w => (Ok VNone, World (stdout w ++ py_str v ++ [nl])).

(** Exit status of the interpreter: 0 on normal completion, 1 when an
    exception reaches the top level. *)
Definition exit_status {A} (o : outcome A) : Z :=
  match o with
  | Ok _ => 0%Z
  | Raise _ => 1%Z
  end.

End Py.

Import Py.
Local Open Scope py_scope.

(** ** The script *)

(** [def greet(name="World"): return f"Hello, {name}!"] *)
Definition greet (args : list value) (kwargs : list (string * value)) : M value :=
  name <- bind_optional "name" (VStr (lit "World")) args kwargs ;;
  ret (VStr (JoinedStr [Constant (lit "Hello, "); FormattedValue name; Constant (lit "!")])).

(** [def main(): print(greet()); print(greet("Claude")); print(greet("GitHub Actions"))] *)
Definition main : M value :=
  g <- greet [] [] ;;
  print g ;;
  g <- greet [VStr (lit "Claude")] [] ;;
  print g ;;
  g <- greet [VStr (lit "GitHub Actions")] [] ;;
  print g ;;
  ret VNone.

(** [if __name__ == "__main__": main()] *)
Definition module_body (dunder_name : string) : M value :=
  if String.eqb dunder_name "__main__" then main ;; ret VNone else ret VNone.

(** Running the file as a script. *)
Definition run_script (w : world) : outcome value * world :=
  module_body "__main__" w.

(** ** Vocabulary used to state the properties *)

(** The code points [str.isspace] and [str.strip] treat as whitespace. *)
Definition isspace (c : codepoint) : bool :=
  ((9 <=? c) && (c <=? 13) || (28 <=? c) && (c <=? 32)
   || (c =? 133) || (c =? 160) || (c =? 5760)
   || (8192 <=? c) && (c <=? 8202)
   || (c =? 8232) || (c =? 8233) || (c =? 8239) || (c =? 8287)
   || (c =? 12288))%N.

Fixpoint lstrip (s : str) : str :=
  match s with
  | [] => []
  | c :: rest => if isspace c then lstrip rest else s
  end.

Definition rstrip (s : str) : str := rev (lstrip (rev s)).

Definition strip (s : str) : str := rstrip (lstrip s).

Definition drop_first (k : nat) (s : str) : str := skipn k s.

Definition drop_last (k : nat) (s : str) : str := firstn (List.length s - k) s.

(** The lines of a text: maximal runs closed by "\n", and a last run
    without line end when it is not empty. *)
Fixpoint lines_from (cur : str) (s : str) : list str :=
  match s with
  | [] => match cur with [] => [] | _ => [rev cur] end
  | c :: rest =>
      if (c =? nl)%N then rev cur :: lines_from [] rest
      else lines_from (c :: cur) rest
  end.

Definition lines (s : str) : list str := lines_from [] s.

(** The text [main] appends to standard output. *)
Definition three_lines : str :=
  lit "Hello, World!" ++ [nl] ++ lit "Hello, Claude!" ++ [nl]
    ++ lit "Hello, GitHub Actions!" ++ [nl].

(** Whether an outcome is an exception. *)
Definition raised {A} (o : outcome A) : bool :=
  match o with
  | Ok _ => false
  | Raise _ => true
  end.

(** ** Sanity checks of the embedding *)

Example greet_world : greet [] [] (World []) = (Ok (VStr (lit "Hello, World!")), World []).
Proof. reflexivity. Qed.

Example greet_int :
  greet [VInt (-5)] [] (World []) = (Ok (VStr (lit "Hello, -5!")), World []).
Proof. reflexivity. Qed.

Example greet_int_collides_with_str :
  greet [VInt 5] [] (World []) = greet [VStr (lit "5")] [] (World []).
Proof. reflexivity. Qed.

Example greet_two_positional_raises :
  greet [VStr (lit "a"); VStr (lit "b")] [] (World []) = (Raise TypeError, World []).
Proof. reflexivity. Qed.

Example greet_unknown_keyword_raises :
  greet [] [("who", VStr (lit "a"))] (World []) = (Raise TypeError, World []).
Proof. reflexivity. Qed.

Example greet_zero :
  greet [VInt 0] [] (World []) = (Ok (VStr (lit "Hello, 0!")), World []).
Proof. reflexivity. Qed.

Example greet_none_and_bool :
  greet [VNone] [] (World []) = (Ok (VStr (lit "Hello, None!")), World [])
  /\ greet [VBool true] [] (World []) = (Ok (VStr (lit "Hello, True!")), World []).
Proof. split; reflexivity. Qed.

Example greet_positional_and_keyword_raises :
  greet [VStr (lit "a")] [("name", VStr (lit "b"))] (World [])
    = (Raise TypeError, World []).
Proof. reflexivity. Qed.

Example lines_two : lines (lit "ab" ++ [nl] ++ [nl] ++ lit "c") = [lit "ab"; []; lit "c"].
Proof. reflexivity. Qed.

Example strip_spaces : strip (lit "  a b " ++ [nl]) = lit "a b".
Proof. reflexivity. Qed.

(** ** Shared lemmas *)

Lemma greet_run_str (n : str) (w : world) :
  greet [VStr n] [] w = (Ok (VStr (lit "Hello, " ++ n ++ lit "!")), w).
Proof. reflexivity. Qed.

Lemma greet_run_default (w : world) :
  greet [] [] w = (Ok (VStr (lit "Hello, World!")), w).
Proof. reflexivity. Qed.

Lemma firstn_length_app {A} (l t : list A) : firstn (List.length l) (l ++ t) = l.
Proof.
  induction l as [| a l IH]; simpl.
  - reflexivity.
  - now rewrite IH.
Qed.

Lemma drop_last_snoc (s : str) (c : codepoint) : drop_last 1 (s ++ [c]) = s.
Proof.
  unfold drop_last. rewrite length_app. simpl.
  replace (List.length s + 1 - 1) with (List.length s) by lia.
  apply firstn_length_app.
Qed.

Lemma lstrip_nonspace (c : codepoint) (s : str) :
  isspace c = false -> lstrip (c :: s) = c :: s.
Proof. intros H. simpl. now rewrite H. Qed.

Lemma rstrip_nonspace (s : str) (c : codepoint) :
  isspace c = false -> rstrip (s ++ [c]) = s ++ [c].
Proof.
  intros H. unfold rstrip. rewrite rev_app_distr. simpl rev at 2.
  simpl app at 1. rewrite (lstrip_nonspace _ _ H).
  simpl. now rewrite rev_involutive.
Qed.

Lemma greeting_snoc (n : str) :
  lit "Hello, " ++ n ++ lit "!" = (lit "Hello, " ++ n) ++ [33%N].
Proof. now rewrite app_assoc. Qed.

(** Rewrites a call of [greet] on a string, or without arguments, to its
    outcome. *)
Ltac run_greet := rewrite ?greet_run_str, ?greet_run_default.

(** ** The properties *)

Section Greeter.

Variable n : str.
Variable w : world.

(** C1: for every string [n], [greet(n)] returns exactly
    ["Hello, " + n + "!"]; the call leaves the world as it was, and passing
    the string by keyword ([greet(name=n)]) gives the same. *)
Theorem greet_concat :
  greet [VStr n] [] w = (Ok (VStr (lit "Hello, " ++ n ++ lit "!")), w)
  /\ greet [] [("name", VStr n)] w = (Ok (VStr (lit "Hello, " ++ n ++ lit "!")), w).
Proof. split; reflexivity. Qed.

(** C3: [greet()] without argument equals [greet("World")], and both are
    ["Hello, World!"]: the default of [name] is the literal ["World"]. *)
Theorem greet_default_is_World :
  greet [] [] w = greet [VStr (lit "World")] [] w
  /\ greet [] [] w = (Ok (VStr (lit "Hello, World!")), w)
  /\ greet [VStr (lit "World")] [] w = (Ok (VStr (lit "Hello, World!")), w).
Proof. repeat split. Qed.

(** C5: [greet("")] returns ["Hello, !"]: the empty string goes through
    like any other string. *)
Theorem greet_empty :
  greet [VStr (lit "")] [] w = (Ok (VStr (lit "Hello, !")), w).
Proof. reflexivity. Qed.

(** C10: the length of [greet(n)] is the length of [n] plus 8. *)
Theorem greet_length :
  exists g, greet [VStr n] [] w = (Ok (VStr g), w) /\ List.length g = List.length n + 8.
Proof.
  eexists. split; [apply greet_run_str |].
  rewrite !length_app. simpl. lia.
Qed.

(** C7: the string [greet(n)] returns begins with ['H'] and ends with
    ['!'], so it has no leading and no trailing whitespace: stripping it
    changes nothing. *)
Theorem greet_no_outer_whitespace :
  exists g, greet [VStr n] [] w = (Ok (VStr g), w)
    /\ hd_error g = Some (N_of_ascii "H")
    /\ last g 0%N = N_of_ascii "!"
    /\ isspace (N_of_ascii "H") = false /\ isspace (N_of_ascii "!") = false
    /\ lstrip g = g /\ rstrip g = g /\ strip g = g.
Proof.
  eexists. split; [apply greet_run_str |].
  assert (Hl : lstrip (lit "Hello, " ++ n ++ lit "!") = lit "Hello, " ++ n ++ lit "!")
    by reflexivity.
  assert (Hr : rstrip (lit "Hello, " ++ n ++ lit "!") = lit "Hello, " ++ n ++ lit "!").
  { rewrite greeting_snoc. now apply rstrip_nonspace. }
  split; [reflexivity |].
  split; [rewrite greeting_snoc; apply last_last |].
  split; [reflexivity |]. split; [reflexivity |].
  split; [exact Hl |]. split; [exact Hr |].
  unfold strip. now rewrite Hl.
Qed.

End Greeter.

Section EntryPoint.

Variable out : str.

Lemma main_run : main (World out) = (Ok VNone, World (out ++ three_lines)).
Proof.
  unfold main, bind, print, ret, three_lines.
  repeat (run_greet; cbn [stdout py_str]).
  rewrite <- !app_assoc. reflexivity.
Qed.

(** C2: [main()] writes exactly three lines to standard output, in this
    order: ["Hello, World!"], ["Hello, Claude!"], ["Hello, GitHub Actions!"];
    each is the result of one call of [greet] (without argument, with
    ["Claude"], with ["GitHub Actions"]) followed by a line end, and nothing
    else is written. *)
Theorem main_writes_three_lines :
  main (World out)
    = (Ok VNone,
       World (out ++ lit "Hello, World!" ++ [nl] ++ lit "Hello, Claude!" ++ [nl]
                  ++ lit "Hello, GitHub Actions!" ++ [nl]))
  /\ lines (stdout (snd (main (World []))))
     = [lit "Hello, World!"; lit "Hello, Claude!"; lit "Hello, GitHub Actions!"]
  /\ exists g1 g2 g3 : value,
       greet [] [] (World out) = (Ok g1, World out)
       /\ greet [VStr (lit "Claude")] [] (World out) = (Ok g2, World out)
       /\ greet [VStr (lit "GitHub Actions")] [] (World out) = (Ok g3, World out)
       /\ stdout (snd (main (World out)))
          = out ++ py_str g1 ++ [nl] ++ py_str g2 ++ [nl] ++ py_str g3 ++ [nl].
Proof.
  split; [apply main_run |].
  split; [reflexivity |].
  do 3 eexists. repeat (split; [reflexivity |]).
  rewrite main_run. reflexivity.
Qed.

End EntryPoint.

Section Effects.

Variable n : str.

(** C4: [greet] is a pure, deterministic function of its string argument:
    in any two worlds it returns the same value, it leaves each world
    exactly as it found it, and calling it twice in a row gives that value
    twice. *)
Theorem greet_pure_deterministic (w1 w2 : world) :
  exists r : value,
    greet [VStr n] [] w1 = (Ok r, w1)
    /\ greet [VStr n] [] w2 = (Ok r, w2)
    /\ (a <- greet [VStr n] [] ;; b <- greet [VStr n] [] ;; ret (a, b)) w1
       = (Ok (r, r), w1).
Proof.
  exists (VStr (lit "Hello, " ++ n ++ lit "!")).
  repeat split.
Qed.

(** C6: [greet] cannot fail on a string: for every string [n] the call
    returns a string and raises nothing; [main] raises nothing either. *)
Theorem greet_cannot_fail (w : world) :
  (exists g : str, greet [VStr n] [] w = (Ok (VStr g), w))
  /\ raised (fst (greet [VStr n] [] w)) = false
  /\ (exists w' : world, main w = (Ok VNone, w'))
  /\ raised (fst (main w)) = false.
Proof.
  split; [eexists; apply greet_run_str |].
  split; [reflexivity |].
  destruct w as [out]. rewrite main_run.
  split; [eexists |]; reflexivity.
Qed.

End Effects.

(** C8: the program terminates: run as a script, it completes with a
    normal outcome (no exception reaches the top level), exit status 0,
    after [main] has returned [None]. *)
Theorem script_terminates_normally (w : world) :
  exists w' : world,
    run_script w = (Ok VNone, w')
    /\ main w = (Ok VNone, w')
    /\ exit_status (fst (run_script w)) = 0%Z
    /\ stdout w' = stdout w ++ three_lines.
Proof.
  destruct w as [out]. exists (World (out ++ three_lines)).
  assert (Hrun : run_script (World out) = (Ok VNone, World (out ++ three_lines))).
  { unfold run_script, module_body. cbn [String.eqb Ascii.eqb Bool.eqb].
    unfold bind. now rewrite main_run. }
  split; [exact Hrun |].
  split; [apply main_run |].
  split; [now rewrite Hrun | reflexivity].
Qed.

(** C9: [greet] can be undone and is injective on strings: dropping the
    first 7 and the last 1 characters of [greet(n1)] gives [n1] back, and
    two different strings get two different greetings. *)
Theorem greet_roundtrip_injective (n1 n2 : str) (w1 w2 : world) :
  (exists g : str,
     greet [VStr n1] [] w1 = (Ok (VStr g), w1)
     /\ drop_last 1 (drop_first 7 g) = n1)
  /\ (n1 <> n2 ->
      fst (greet [VStr n1] [] w1) <> fst (greet [VStr n2] [] w2)).
Proof.
  split.
  - eexists. split; [apply greet_run_str |].
    change (drop_first 7 (lit "Hello, " ++ n1 ++ lit "!")) with (n1 ++ [33%N]).
    apply drop_last_snoc.
  - intros Hne Heq. apply Hne. rewrite !greet_run_str in Heq.
    cbn [fst] in Heq. injection Heq as Heq.
    now apply app_inv_tail in Heq.
Qed.

Lemma greet_roundtrip_injective_witness :
  lit "a" <> lit "b"
  /\ fst (greet [VStr (lit "a")] [] (World []))
     <> fst (greet [VStr (lit "b")] [] (World (lit "x"))).
Proof.
  split.
  - discriminate.
  - apply (proj2 (greet_roundtrip_injective (lit "a") (lit "b") (World []) (World (lit "x")))).
    discriminate.
Defined.

(** ** Further properties of the script *)

(** *** Lemmas on lines *)



(** *** Calls of [greet] in general *)

Section Calls.

Variable args : list value.
Variable kwargs : list (string * value).
Variable w : world.




End Calls.



(** *** Values other than strings *)



(** *** Printing a greeting *)

Section PrintGreeting.

Variable n : str.
Variable out : str.



End PrintGreeting.


(** *** The module guard *)

(** X1: the guard [if __name__ == "__main__"] keeps [main] from running
    when the file is loaded under any other module name, as on import:
    nothing is written and no exception is raised. *)
Theorem import_has_no_effect (dunder_name : string) (w : world) :
  dunder_name <> "__main__" ->
  module_body dunder_name w = (Ok VNone, w).
Proof.
  intros Hname. unfold module_body.
  apply String.eqb_neq in Hname. now rewrite Hname.
Qed.

Lemma import_has_no_effect_witness :
  module_body "hello_world" (World (lit "x")) = (Ok VNone, World (lit "x")).
Proof.
  apply (import_has_no_effect "hello_world" (World (lit "x"))).
  discriminate.
Defined.
